(** * The Backstage ECS stack as a declaration graph

    [src/aws/aws/backstage.py] is one constructor, [BackstageEcsStack.__init__],
    which calls the provisioning SDK to declare resources and to link them.
    This development embeds that constructor as a program in a small
    state-and-error monad over the stack under construction, and proves the
    structural properties of the graph it leaves behind.

    Every construct the program declares is stored under its logical name
    (its construct path inside the stack); a Python variable holding a construct
    is a handle, i.e. that name, so that later calls which mutate a construct
    ([add_ingress_rule], [add_listener], [add_container], [add_to_policy],
    [add_targets], [node.add_dependency]) act on the one shared declaration. *)

From Stdlib Require Import QArith ZArith.
From stdpp Require Import gmap strings list fin_maps pretty.

Open Scope string_scope.
Open Scope Z_scope.

(** ** Data model *)

(** A handle names a construct declared in the stack. *)
Definition handle := string.

(** Values handed to the container: literals, attributes of declared
    constructs that only resolve at deployment, Python's [str(...)] of such an
    attribute, and an f-string made of a literal prefix and a value. *)
Inductive Value : Type :=
| VStr (s : string)
| VAttr (res : handle) (attr : string)
| VToStr (v : Value)
| VFormat (prefix : string) (v : Value).

Fixpoint value_refs (v : Value) : list handle :=
  match v with
  | VStr _ => []
  | VAttr h _ => [h]
  | VToStr v' => value_refs v'
  | VFormat _ v' => value_refs v'
  end.

Module ec2.

Inductive Peer : Type :=
| any_ipv4
| sg_peer (sg : handle).

Inductive Protocol : Type := TCP.

Record Port : Type := mkPort { protocol : Protocol; from_port : Z; to_port : Z }.

Definition tcp (p : Z) : Port := mkPort TCP p p.

Record IngressRule : Type := mkIngressRule {
  rule_peer : Peer;
  rule_port : Port;
  rule_description : string }.

Inductive InstanceClass : Type := BURSTABLE3.
Inductive InstanceSize : Type := MEDIUM.
Inductive SubnetType : Type := PRIVATE_WITH_EGRESS.

Record Vpc : Type := mkVpc { max_azs : Z }.

Record SecurityGroup : Type := mkSecurityGroup {
  sg_vpc : handle;
  allow_all_outbound : option bool;
  ingress_rules : list IngressRule }.

#[global] Instance Peer_eq_dec : EqDecision Peer.
Proof. solve_decision. Defined.
#[global] Instance Protocol_eq_dec : EqDecision Protocol.
Proof. solve_decision. Defined.
#[global] Instance Port_eq_dec : EqDecision Port.
Proof. solve_decision. Defined.

(** A peer is a public address range when it is 0.0.0.0/0; a security-group
    peer is not an address range at all. *)
Definition is_public_range (p : Peer) : bool :=
  match p with
  | any_ipv4 => true
  | sg_peer _ => false
  end.

Definition peer_refs (p : Peer) : list handle :=
  match p with
  | any_ipv4 => []
  | sg_peer h => [h]
  end.

End ec2.

Module elbv2.

Record ApplicationLoadBalancer : Type := mkApplicationLoadBalancer {
  alb_vpc : handle;
  internet_facing : bool;
  security_group : handle }.

Record HealthCheck : Type := mkHealthCheck {
  path : string;
  interval_seconds : Z;
  timeout_seconds : Z;
  healthy_threshold_count : Z;
  unhealthy_threshold_count : Z }.

(** What [fargate_service.load_balancer_target(...)] returns. *)
Record LoadBalancerTarget : Type := mkLoadBalancerTarget {
  target_service : handle;
  container_name : string;
  container_port : Z }.

(** One [listener.add_targets] call. *)
Record TargetRegistration : Type := mkTargetRegistration {
  registration_id : string;
  registration_port : Z;
  targets : list LoadBalancerTarget;
  health_check : HealthCheck }.

Record Listener : Type := mkListener {
  load_balancer : handle;
  port : Z;
  open : bool;
  registrations : list TargetRegistration }.

End elbv2.

Module s3.

Record Bucket : Type := mkBucket { public_read_access : bool }.

End s3.

Inductive RemovalPolicy : Type := DESTROY | RETAIN | SNAPSHOT.

Module rds.

Inductive AuroraPostgresEngineVersion : Type := VER_13_12.

Inductive DatabaseClusterEngine : Type :=
| aurora_postgres (version : AuroraPostgresEngineVersion).

Inductive Credentials : Type :=
| from_generated_secret (username : string).

Record InstanceProps : Type := mkInstanceProps {
  instance_type : ec2.InstanceClass * ec2.InstanceSize;
  instance_vpc : handle;
  vpc_subnets : ec2.SubnetType }.

(** Python's [0.5] and [4] are both exact; capacities are kept as rationals. *)
Record DatabaseCluster : Type := mkDatabaseCluster {
  engine : DatabaseClusterEngine;
  security_groups : list handle;
  credentials : Credentials;
  default_database_name : string;
  removal_policy : RemovalPolicy;
  instance_props : InstanceProps;
  serverless_v2_min_capacity : Q;
  serverless_v2_max_capacity : Q }.

End rds.

Module iam.

Inductive ServicePrincipal : Type := mkServicePrincipal (service : string).

Inductive ManagedPolicy : Type :=
| from_aws_managed_policy_name (name : string).

Record PolicyStatement : Type := mkPolicyStatement {
  actions : list string;
  resources : list string }.

Record Role : Type := mkRole {
  assumed_by : ServicePrincipal;
  managed_policies : list ManagedPolicy;
  policy_statements : list PolicyStatement }.

End iam.

Module ecs.

Inductive CpuArchitecture : Type := ARM64 | X86_64.
Inductive OperatingSystemFamily : Type := LINUX.

Record RuntimePlatform : Type := mkRuntimePlatform {
  cpu_architecture : CpuArchitecture;
  operating_system_family : OperatingSystemFamily }.

Inductive ContainerImage : Type := from_registry (name : string).

Inductive LogDriver : Type := aws_logs (stream_prefix : string).

(** [db_cluster.secret]: the secret the cluster generates for its
    credentials. *)
Inductive SecretSource : Type := cluster_secret (cluster : handle).

(** [ecs.Secret.from_secrets_manager(secret, field=...)]. *)
Inductive Secret : Type :=
| from_secrets_manager (secret : SecretSource) (field : string).

Record PortMapping : Type := mkPortMapping { container_port : Z }.

Record ContainerDefinition : Type := mkContainerDefinition {
  container_name : string;
  image : ContainerImage;
  logging : LogDriver;
  environment : gmap string Value;
  secrets : gmap string Secret;
  port_mappings : list PortMapping }.

Record FargateTaskDefinition : Type := mkFargateTaskDefinition {
  memory_limit_mib : Z;
  cpu : Z;
  task_role : handle;
  execution_role : handle;
  runtime_platform : RuntimePlatform;
  containers : list ContainerDefinition }.

Record Cluster : Type := mkCluster { cluster_vpc : handle }.

Inductive DeploymentControllerType : Type := ECS | CODE_DEPLOY | EXTERNAL.

Record FargateService : Type := mkFargateService {
  cluster : handle;
  task_definition : handle;
  security_groups : list handle;
  desired_count : Z;
  deployment_controller : DeploymentControllerType }.

Definition secret_refs (s : Secret) : list handle :=
  match s with
  | from_secrets_manager (cluster_secret h) _ => [h]
  end.

End ecs.

Record CfnOutput : Type := mkCfnOutput { value : Value }.

(** A declared construct. *)
Inductive Resource : Type :=
| RVpc (r : ec2.Vpc)
| RSecurityGroup (r : ec2.SecurityGroup)
| RLoadBalancer (r : elbv2.ApplicationLoadBalancer)
| RListener (r : elbv2.Listener)
| RCluster (r : ecs.Cluster)
| RBucket (r : s3.Bucket)
| RDatabaseCluster (r : rds.DatabaseCluster)
| RRole (r : iam.Role)
| RTaskDefinition (r : ecs.FargateTaskDefinition)
| RService (r : ecs.FargateService)
| ROutput (r : CfnOutput).

(** A node of the construct tree: the declaration and the explicit
    dependencies added through [node.add_dependency]. *)
Record Node : Type := mkNode {
  resource : Resource;
  dependencies : list handle }.

(** The deployment environment, [env=Environment(account=..., region=...)]. *)
Record Environment : Type := mkEnvironment {
  account : option string;
  region : option string }.

(** The keyword arguments [**kwargs] the constructor forwards to [Stack]. *)
Record StackProps : Type := mkStackProps {
  env : option Environment;
  stack_name : option string;
  description : option string;
  termination_protection : option bool }.

(** The parent construct: its path and the ids already taken below it. *)
Record Construct : Type := mkConstruct {
  construct_path : list string;
  children : gset string }.

(** The stack under construction: where it lives, its props, the declared
    nodes by logical name, and the order of declaration. *)
Record Stack : Type := mkStack {
  stack_scope : list string;
  stack_id : string;
  stack_props : StackProps;
  nodes : gmap string Node;
  declared : list string }.

Definition props_account (k : StackProps) : option string :=
  e ← env k; account e.

Definition props_region (k : StackProps) : option string :=
  e ← env k; region e.

Definition stack_account (s : Stack) : option string := props_account (stack_props s).

Definition stack_region (s : Stack) : option string := props_region (stack_props s).

(** ** The construction monad

    The SDK calls of the constructor read and update the stack being built, and
    raise when a construct id is taken or a target cannot be validated. *)

Inductive Error : Type :=
| DuplicateId (id : string)
| UnknownConstruct (h : handle)
| NoContainer (name : string)
| NoPortMapping (name : string) (port : Z).

Definition M (A : Type) : Type := Stack -> Error + A * Stack.

#[export] Instance M_ret : MRet M := fun A a s => inr (a, s).

#[export] Instance M_bind : MBind M := fun A B f m s =>
  match m s with
  | inl e => inl e
  | inr (a, s') => f a s'
  end.

Definition raise {A : Type} (e : Error) : M A := fun _ => inl e.

Definition get_nodes : M (gmap string Node) := fun s => inr (nodes s, s).

Definition put_nodes (m : gmap string Node) (order : list string) : M unit := fun s =>
  inr (tt, mkStack (stack_scope s) (stack_id s) (stack_props s) m order).

Definition get_declared : M (list string) := fun s => inr (declared s, s).

Fixpoint for_each {A : Type} (l : list A) (f : A -> M unit) : M unit :=
  match l with
  | [] => mret tt
  | a :: l' => f a ;; for_each l' f
  end.

(** [Construct.__init__]: a construct id can be used once. *)
Definition declare (id : string) (r : Resource) : M handle :=
  m ← get_nodes;
  match m !! id with
  | Some _ => raise (DuplicateId id)
  | None =>
      order ← get_declared;
      put_nodes (<[id := mkNode r []]> m) (order ++ [id]) ;;
      mret id
  end.

Definition get_node (h : handle) : M Node :=
  m ← get_nodes;
  match m !! h with
  | Some n => mret n
  | None => raise (UnknownConstruct h)
  end.

(** In-place update of a declared construct; its dependencies are kept. *)
Definition set_resource (h : handle) (r : Resource) : M unit :=
  n ← get_node h;
  m ← get_nodes;
  order ← get_declared;
  put_nodes (<[h := mkNode r (dependencies n)]> m) order.

Definition get_security_group (h : handle) : M ec2.SecurityGroup :=
  n ← get_node h;
  match resource n with
  | RSecurityGroup g => mret g
  | _ => raise (UnknownConstruct h)
  end.

Definition get_load_balancer (h : handle) : M elbv2.ApplicationLoadBalancer :=
  n ← get_node h;
  match resource n with
  | RLoadBalancer lb => mret lb
  | _ => raise (UnknownConstruct h)
  end.

Definition get_listener (h : handle) : M elbv2.Listener :=
  n ← get_node h;
  match resource n with
  | RListener l => mret l
  | _ => raise (UnknownConstruct h)
  end.

Definition get_role (h : handle) : M iam.Role :=
  n ← get_node h;
  match resource n with
  | RRole r => mret r
  | _ => raise (UnknownConstruct h)
  end.

Definition get_task_definition (h : handle) : M ecs.FargateTaskDefinition :=
  n ← get_node h;
  match resource n with
  | RTaskDefinition t => mret t
  | _ => raise (UnknownConstruct h)
  end.

Definition get_service (h : handle) : M ecs.FargateService :=
  n ← get_node h;
  match resource n with
  | RService s => mret s
  | _ => raise (UnknownConstruct h)
  end.

(** ** The SDK surface used by the constructor *)

(** [ec2.SecurityGroup(self, id, vpc=..., allow_all_outbound=...)]: a new
    group has no ingress rule. *)
Definition SecurityGroup (id : string) (vpc : handle) (allow_all_outbound : option bool)
  : M handle :=
  declare id (RSecurityGroup (ec2.mkSecurityGroup vpc allow_all_outbound [])).

(** Two rules are the same rule when peer and port range agree; the
    description does not count. *)
Definition same_rule (a b : ec2.IngressRule) : bool :=
  bool_decide (ec2.rule_peer a = ec2.rule_peer b ∧ ec2.rule_port a = ec2.rule_port b).

(** [sg.add_ingress_rule(peer, port, description)]: the rule is appended to
    the group unless the same rule is already there. *)
Definition add_ingress_rule (sg : handle) (peer : ec2.Peer) (port : ec2.Port)
    (description : string) : M unit :=
  g ← get_security_group sg;
  let r := ec2.mkIngressRule peer port description in
  if existsb (same_rule r) (ec2.ingress_rules g) then mret tt
  else set_resource sg (RSecurityGroup
         (ec2.mkSecurityGroup (ec2.sg_vpc g) (ec2.allow_all_outbound g)
            (ec2.ingress_rules g ++ [r]))).

(** [alb.add_listener(id, port=..., open=...)]: the listener is a child of
    the load balancer; with [open] the load balancer's security group lets
    anyone in on the listener port. *)
Definition add_listener (alb : handle) (id : string) (port : Z) (open : bool) : M handle :=
  lb ← get_load_balancer alb;
  listener ← declare (alb +:+ "/" +:+ id) (RListener (elbv2.mkListener alb port open []));
  (if open
   then add_ingress_rule (elbv2.security_group lb) ec2.any_ipv4 (ec2.tcp port)
          ("Allow from anyone on port " +:+ pretty port)
   else mret tt) ;;
  mret listener.

(** [role.add_to_policy(statement)]. *)
Definition add_to_policy (role : handle) (st : iam.PolicyStatement) : M unit :=
  r ← get_role role;
  set_resource role (RRole
    (iam.mkRole (iam.assumed_by r) (iam.managed_policies r) (iam.policy_statements r ++ [st]))).

(** [ecs.FargateTaskDefinition(self, id, ...)]: no container yet. *)
Definition FargateTaskDefinition (id : string) (memory_limit_mib cpu : Z)
    (task_role execution_role : handle) (runtime_platform : ecs.RuntimePlatform) : M handle :=
  declare id (RTaskDefinition
    (ecs.mkFargateTaskDefinition memory_limit_mib cpu task_role execution_role
       runtime_platform [])).

Definition find_container (name : string) (t : ecs.FargateTaskDefinition)
  : option ecs.ContainerDefinition :=
  List.find (fun c => bool_decide (ecs.container_name c = name)) (ecs.containers t).

(** [task_definition.add_container(id, ...)]: the container is a child of the
    task definition, so its id must be free there. *)
Definition add_container (task_definition : handle) (c : ecs.ContainerDefinition)
  : M ecs.ContainerDefinition :=
  t ← get_task_definition task_definition;
  match find_container (ecs.container_name c) t with
  | Some _ => raise (DuplicateId (task_definition +:+ "/" +:+ ecs.container_name c))
  | None =>
      set_resource task_definition (RTaskDefinition
        (ecs.mkFargateTaskDefinition (ecs.memory_limit_mib t) (ecs.cpu t) (ecs.task_role t)
           (ecs.execution_role t) (ecs.runtime_platform t) (ecs.containers t ++ [c]))) ;;
      mret c
  end.

(** [service.load_balancer_target(container_name=..., container_port=...)]:
    the SDK looks the container up in the service's task definition and
    requires a port mapping for the port. *)
Definition load_balancer_target (service : handle) (container_name : string)
    (container_port : Z) : M elbv2.LoadBalancerTarget :=
  svc ← get_service service;
  t ← get_task_definition (ecs.task_definition svc);
  match find_container container_name t with
  | None => raise (NoContainer container_name)
  | Some c =>
      if existsb (fun p => bool_decide (ecs.container_port p = container_port))
           (ecs.port_mappings c)
      then mret (elbv2.mkLoadBalancerTarget service container_name container_port)
      else raise (NoPortMapping container_name container_port)
  end.

(** [listener.add_targets(id, port=..., targets=..., health_check=...)]: the
    registration is recorded on the listener, and every security group of a
    target service lets the load balancer's security group in on the target's
    container port. *)
Definition add_targets (listener : handle) (id : string) (port : Z)
    (targets : list elbv2.LoadBalancerTarget) (health_check : elbv2.HealthCheck) : M unit :=
  l ← get_listener listener;
  set_resource listener (RListener
    (elbv2.mkListener (elbv2.load_balancer l) (elbv2.port l) (elbv2.open l)
       (elbv2.registrations l ++ [elbv2.mkTargetRegistration id port targets health_check]))) ;;
  lb ← get_load_balancer (elbv2.load_balancer l);
  for_each targets (fun t =>
    svc ← get_service (elbv2.target_service t);
    for_each (ecs.security_groups svc) (fun sg =>
      add_ingress_rule sg (ec2.sg_peer (elbv2.security_group lb))
        (ec2.tcp (elbv2.container_port t)) "Load balancer to target")).

(** [construct.node.add_dependency(dep)]. *)
Definition add_dependency (h : handle) (dep : handle) : M unit :=
  n ← get_node h;
  _ ← get_node dep;
  m ← get_nodes;
  order ← get_declared;
  put_nodes (<[h := mkNode (resource n) (dependencies n ++ [dep])]> m) order.

(** A Python dict literal: later keys overwrite earlier ones. *)
Definition dict {V : Type} (l : list (string * V)) : gmap string V :=
  foldl (fun m kv => <[kv.1 := kv.2]> m) ∅ l.

(** [Stack.__init__(scope, id, **kwargs)]: the stack takes [id] under
    [scope], where it must be free, and starts empty. *)
Definition Stack_init (scope : Construct) (id : string) (kwargs : StackProps)
  : Error + Stack :=
  if decide (id ∈ children scope) then inl (DuplicateId id)
  else inr (mkStack (construct_path scope) id kwargs ∅ []).

(** ** The constructor *)

(** The body of [BackstageEcsStack.__init__] after [super().__init__], call by
    call and in the order of the source. *)
Definition BackstageEcsStack_body : M unit :=
  vpc ← declare "BackstageVpc" (RVpc {| ec2.max_azs := 2 |});
  ecs_sg ← SecurityGroup "EcsSecurityGroup" vpc (Some true);
  alb_sg ← SecurityGroup "ALBSecurityGroup" vpc None;
  add_ingress_rule alb_sg ec2.any_ipv4 (ec2.tcp 80) "Allow HTTP" ;;
  rds_sg ← SecurityGroup "RdsSecurityGroup" vpc (Some true);
  add_ingress_rule rds_sg (ec2.sg_peer ecs_sg) (ec2.tcp 5432) "Allow ECS to connect to RDS" ;;
  alb ← declare "CustomALB" (RLoadBalancer
    {| elbv2.alb_vpc := vpc;
       elbv2.internet_facing := true;
       elbv2.security_group := alb_sg |});
  listener ← add_listener alb "ALBListener" 80 true;
  cluster ← declare "BackstageCluster" (RCluster {| ecs.cluster_vpc := vpc |});
  bucket ← declare "BackstageAssets" (RBucket {| s3.public_read_access := false |});
  db_cluster ← declare "BackstageAuroraDB" (RDatabaseCluster
    {| rds.engine := rds.aurora_postgres rds.VER_13_12;
       rds.security_groups := [rds_sg];
       rds.credentials := rds.from_generated_secret "postgres";
       rds.default_database_name := "backstage";
       rds.removal_policy := DESTROY;
       rds.instance_props :=
         {| rds.instance_type := (ec2.BURSTABLE3, ec2.MEDIUM);
            rds.instance_vpc := vpc;
            rds.vpc_subnets := ec2.PRIVATE_WITH_EGRESS |};
       rds.serverless_v2_min_capacity := (1 # 2)%Q;
       rds.serverless_v2_max_capacity := (4 # 1)%Q |});
  task_role ← declare "BackstageTaskRole" (RRole
    {| iam.assumed_by := iam.mkServicePrincipal "ecs-tasks.amazonaws.com";
       iam.managed_policies := [iam.from_aws_managed_policy_name "AmazonS3ReadOnlyAccess"];
       iam.policy_statements := [] |});
  task_execution_role ← declare "BackstageTaskExecutionRole" (RRole
    {| iam.assumed_by := iam.mkServicePrincipal "ecs-tasks.amazonaws.com";
       iam.managed_policies := [];
       iam.policy_statements := [] |});
  add_to_policy task_execution_role
    {| iam.actions := ["ecr:GetAuthorizationToken"; "ecr:BatchCheckLayerAvailability";
                       "ecr:GetDownloadUrlForLayer"; "ecr:BatchGetImage"];
       iam.resources := ["*"] |} ;;
  task_definition ← FargateTaskDefinition "BackstageTaskDef" 1024 512
    task_role task_execution_role
    {| ecs.cpu_architecture := ecs.ARM64; ecs.operating_system_family := ecs.LINUX |};
  container ← add_container task_definition
    {| ecs.container_name := "BackstageContainer";
       ecs.image := ecs.from_registry "975050238273.dkr.ecr.ap-south-1.amazonaws.com/backstage";
       ecs.logging := ecs.aws_logs "Backstage";
       ecs.environment := dict
         [ ("POSTGRES_HOST", VAttr db_cluster "cluster_endpoint.hostname");
           ("POSTGRES_USER", VStr "postgres");
           ("POSTGRES_PORT", VToStr (VAttr db_cluster "cluster_endpoint.port"));
           ("AWS_S3_BUCKET", VAttr bucket "bucket_name");
           ("BASE_URL", VFormat "http://" (VAttr alb "load_balancer_dns_name")) ];
       ecs.secrets := dict
         [ ("POSTGRES_PASSWORD",
            ecs.from_secrets_manager (ecs.cluster_secret db_cluster) "password") ];
       ecs.port_mappings := [ {| ecs.container_port := 7007 |} ] |};
  fargate_service ← declare "BackstageService" (RService
    {| ecs.cluster := cluster;
       ecs.task_definition := task_definition;
       ecs.security_groups := [ecs_sg];
       ecs.desired_count := 1;
       ecs.deployment_controller := ecs.ECS |});
  target ← load_balancer_target fargate_service "BackstageContainer" 7007;
  add_targets listener "ECS" 80 [target]
    {| elbv2.path := "/";
       elbv2.interval_seconds := 30;
       elbv2.timeout_seconds := 5;
       elbv2.healthy_threshold_count := 2;
       elbv2.unhealthy_threshold_count := 5 |} ;;
  add_dependency fargate_service db_cluster ;;
  _ ← declare "LoadBalancerDNS"
        (ROutput {| value := VAttr alb "load_balancer_dns_name" |});
  mret tt.

(** [BackstageEcsStack(scope, id, **kwargs)]: the stack the constructor
    leaves behind, or the error it raises. *)
Definition BackstageEcsStack (scope : Construct) (id : string) (kwargs : StackProps)
  : Error + Stack :=
  match Stack_init scope id kwargs with
  | inl e => inl e
  | inr self =>
      match BackstageEcsStack_body self with
      | inl e => inl e
      | inr (_, s) => inr s
      end
  end.

(** ** Reading the graph *)

Definition as_security_group (n : Node) : option ec2.SecurityGroup :=
  match resource n with RSecurityGroup g => Some g | _ => None end.

Definition as_load_balancer (n : Node) : option elbv2.ApplicationLoadBalancer :=
  match resource n with RLoadBalancer lb => Some lb | _ => None end.

Definition as_listener (n : Node) : option elbv2.Listener :=
  match resource n with RListener l => Some l | _ => None end.

Definition as_database_cluster (n : Node) : option rds.DatabaseCluster :=
  match resource n with RDatabaseCluster d => Some d | _ => None end.

Definition as_task_definition (n : Node) : option ecs.FargateTaskDefinition :=
  match resource n with RTaskDefinition t => Some t | _ => None end.

Definition as_service (n : Node) : option ecs.FargateService :=
  match resource n with RService v => Some v | _ => None end.

Definition as_bucket (n : Node) : option s3.Bucket :=
  match resource n with RBucket b => Some b | _ => None end.

Definition as_output (n : Node) : option CfnOutput :=
  match resource n with ROutput o => Some o | _ => None end.

(** The declarations of one kind, by logical name. *)
Definition security_groups (s : Stack) : gmap string ec2.SecurityGroup :=
  omap as_security_group (nodes s).

Definition load_balancers (s : Stack) : gmap string elbv2.ApplicationLoadBalancer :=
  omap as_load_balancer (nodes s).

Definition listeners (s : Stack) : gmap string elbv2.Listener :=
  omap as_listener (nodes s).

Definition database_clusters (s : Stack) : gmap string rds.DatabaseCluster :=
  omap as_database_cluster (nodes s).

Definition task_definitions (s : Stack) : gmap string ecs.FargateTaskDefinition :=
  omap as_task_definition (nodes s).

Definition services (s : Stack) : gmap string ecs.FargateService :=
  omap as_service (nodes s).

Definition buckets (s : Stack) : gmap string s3.Bucket :=
  omap as_bucket (nodes s).

Definition outputs (s : Stack) : gmap string CfnOutput :=
  omap as_output (nodes s).

(** The containers of a task definition with their declared ports. *)
Definition container_ports (t : ecs.FargateTaskDefinition) : list (string * list Z) :=
  (fun c => (ecs.container_name c, ecs.container_port <$> ecs.port_mappings c))
  <$> ecs.containers t.

(** The targets registered on a listener. *)
Definition registered_targets (l : elbv2.Listener) : list elbv2.LoadBalancerTarget :=
  flat_map elbv2.targets (elbv2.registrations l).

(** What each container of a task definition is given: plain values ... *)
Definition container_environments (t : ecs.FargateTaskDefinition)
  : list (gmap string Value) :=
  ecs.environment <$> ecs.containers t.

(** ... and values read from the secret store. *)
Definition container_secrets (t : ecs.FargateTaskDefinition)
  : list (gmap string ecs.Secret) :=
  ecs.secrets <$> ecs.containers t.

Definition capacity_range (d : rds.DatabaseCluster) : Q * Q :=
  (rds.serverless_v2_min_capacity d, rds.serverless_v2_max_capacity d).

Definition dependencies_of (s : Stack) (h : handle) : list handle :=
  match nodes s !! h with Some n => dependencies n | None => [] end.

Definition container_refs (c : ecs.ContainerDefinition) : list handle :=
  (flat_map (fun kv => value_refs kv.2) (map_to_list (ecs.environment c)))
  ++ (flat_map (fun kv => ecs.secret_refs kv.2) (map_to_list (ecs.secrets c))).

(** The constructs a declaration refers to. *)
Definition resource_refs (r : Resource) : list handle :=
  match r with
  | RVpc _ => []
  | RSecurityGroup g =>
      ec2.sg_vpc g :: flat_map (fun i => ec2.peer_refs (ec2.rule_peer i)) (ec2.ingress_rules g)
  | RLoadBalancer lb => [elbv2.alb_vpc lb; elbv2.security_group lb]
  | RListener l =>
      elbv2.load_balancer l
      :: flat_map (fun g => elbv2.target_service <$> elbv2.targets g) (elbv2.registrations l)
  | RCluster c => [ecs.cluster_vpc c]
  | RBucket _ => []
  | RDatabaseCluster d => rds.security_groups d ++ [rds.instance_vpc (rds.instance_props d)]
  | RRole _ => []
  | RTaskDefinition t =>
      ecs.task_role t :: ecs.execution_role t :: flat_map container_refs (ecs.containers t)
  | RService v => ecs.cluster v :: ecs.task_definition v :: ecs.security_groups v
  | ROutput o => value_refs (value o)
  end.

(** The logical names of the graph. *)
Definition logical_names (s : Stack) : gset string := dom (nodes s).

(** The edges of the graph: references held in a declaration, and explicit
    dependencies. *)
Definition reference_edges (s : Stack) : gset (handle * handle) :=
  list_to_set
    (flat_map (fun hn => (fun t => (hn.1, t)) <$>
                 (resource_refs (resource hn.2) ++ dependencies hn.2)%list)
       (map_to_list (nodes s))).

(** Position of a construct in the order of declaration. *)
Fixpoint index_of (h : handle) (l : list handle) : option nat :=
  match l with
  | [] => None
  | x :: l' => if decide (x = h) then Some O else S <$> index_of h l'
  end.

(** [a] is declared, and [b] is declared later. *)
Definition declared_before (s : Stack) (a b : handle) : Prop :=
  ∃ i j : nat, index_of a (declared s) = Some i ∧ index_of b (declared s) = Some j ∧ (i < j)%nat.

(** ** Further readings of the graph *)

Definition as_vpc (n : Node) : option ec2.Vpc :=
  match resource n with RVpc v => Some v | _ => None end.

Definition as_cluster (n : Node) : option ecs.Cluster :=
  match resource n with RCluster c => Some c | _ => None end.


Definition vpcs (s : Stack) : gmap string ec2.Vpc := omap as_vpc (nodes s).

Definition clusters (s : Stack) : gmap string ecs.Cluster := omap as_cluster (nodes s).


#[global] Instance ServicePrincipal_eq_dec : EqDecision iam.ServicePrincipal.
Proof. solve_decision. Defined.

#[global] Instance ManagedPolicy_eq_dec : EqDecision iam.ManagedPolicy.
Proof. solve_decision. Defined.

(** The [vpc=...] arguments of a declaration. *)
Definition vpc_refs (r : Resource) : list handle :=
  match r with
  | RSecurityGroup g => [ec2.sg_vpc g]
  | RLoadBalancer lb => [elbv2.alb_vpc lb]
  | RCluster c => [ecs.cluster_vpc c]
  | RDatabaseCluster d => [rds.instance_vpc (rds.instance_props d)]
  | _ => []
  end.

(** The VPC a security group was created in. *)
Definition group_vpc (s : Stack) (sg : handle) : option handle :=
  ec2.sg_vpc <$> (security_groups s !! sg).

(** The ingress rules of a security group, none when there is no such group. *)
Definition group_rules (s : Stack) (sg : handle) : list ec2.IngressRule :=
  match security_groups s !! sg with
  | Some g => ec2.ingress_rules g
  | None => []
  end.

(** The security groups attached to load balancers ... *)
Definition load_balancer_groups (s : Stack) : list handle :=
  (fun kv => elbv2.security_group kv.2) <$> map_to_list (load_balancers s).

(** ... and to the internet-facing ones among them. *)
Definition internet_facing_groups (s : Stack) : list handle :=
  (fun kv => elbv2.security_group kv.2)
  <$> List.filter (fun kv => elbv2.internet_facing kv.2) (map_to_list (load_balancers s)).

(** The container ports mapped by the containers of a service's task
    definition. *)
Definition service_container_ports (s : Stack) (v : ecs.FargateService) : list Z :=
  match task_definitions s !! ecs.task_definition v with
  | Some t => flat_map (fun c => ecs.container_port <$> ecs.port_mappings c) (ecs.containers t)
  | None => []
  end.






(** ** Deployment contexts to run the constructor in *)

Definition app : Construct := mkConstruct [] ∅.

Definition prod_props : StackProps :=
  mkStackProps (Some (mkEnvironment (Some "975050238273") (Some "ap-south-1")))
    None None None.

Definition described_props : StackProps :=
  mkStackProps (Some (mkEnvironment (Some "975050238273") (Some "ap-south-1")))
    (Some "backstage-prod") (Some "Backstage developer portal") (Some true).

Definition empty_stack (path : list string) (id : string) (kwargs : StackProps) : Stack :=
  mkStack path id kwargs ∅ [].

(** What the body leaves in an empty stack. *)
Definition built : Stack :=
  match BackstageEcsStack_body (empty_stack [] "Backstage" prod_props) with
  | inr (_, s) => s
  | inl _ => empty_stack [] "Backstage" prod_props
  end.

(** ** The constructor runs to completion *)

Lemma Stack_init_inr scope id kwargs self :
  Stack_init scope id kwargs = inr self →
  (id ∉ children scope) ∧ self = empty_stack (construct_path scope) id kwargs.
Proof.
  unfold Stack_init. destruct (decide (id ∈ children scope)) as [Hin | Hout].
  - discriminate.
  - intros [= <-]. split; [exact Hout | reflexivity].
Qed.

(** The body never looks at where the stack lives: started from an empty
    stack it always succeeds, with the same nodes declared in the same
    order. *)
Lemma BackstageEcsStack_body_run path id kwargs :
  BackstageEcsStack_body (empty_stack path id kwargs)
  = inr (tt, mkStack path id kwargs (nodes built) (declared built)).
Proof. vm_compute. exact eq_refl. Qed.



(** A constructed stack is the built graph placed in its context. *)
Lemma BackstageEcsStack_inr scope id kwargs s :
  BackstageEcsStack scope id kwargs = inr s →
  s = mkStack (construct_path scope) id kwargs (nodes built) (declared built).
Proof.
  unfold BackstageEcsStack. intros H.
  destruct (Stack_init scope id kwargs) as [e | self] eqn:Hinit; [discriminate H |].
  apply Stack_init_inr in Hinit as [_ ->].
  rewrite BackstageEcsStack_body_run in H. congruence.
Qed.

(** Closed equations are settled by evaluation. *)
Ltac by_evaluation := vm_compute; exact eq_refl.

(** Decidable closed facts (membership in a computed list or set). *)
Ltac by_decision :=
  lazymatch goal with
  | |- ?P => apply (bool_decide_unpack P); vm_compute; exact I
  end.

(** ** What the rule-adding calls can change *)

Lemma get_security_group_inr sg st g st' :
  get_security_group sg st = inr (g, st') →
  st' = st ∧ security_groups st !! sg = Some g.
Proof.
  unfold get_security_group, get_node, get_nodes, security_groups, mbind, M_bind, mret, M_ret, raise.
  rewrite lookup_omap. unfold as_security_group.
  destruct (nodes st !! sg) as [n |]; [| discriminate].
  simpl. destruct (resource n); try discriminate.
  intros [= -> ->]. split; reflexivity.
Qed.

(** After [add_ingress_rule sg peer port d], a rule found in any security
    group was there before, or sits in [sg] with the given peer and port. *)
Lemma add_ingress_rule_rules sg peer port d st st' :
  add_ingress_rule sg peer port d st = inr (tt, st') →
  ∀ h g', security_groups st' !! h = Some g' →
    ∃ g, security_groups st !! h = Some g
         ∧ ∀ r, r ∈ ec2.ingress_rules g' →
             r ∈ ec2.ingress_rules g
             ∨ (h = sg ∧ ec2.rule_peer r = peer ∧ ec2.rule_port r = port).
Proof.
  unfold add_ingress_rule. unfold mbind at 1. unfold M_bind at 1.
  destruct (get_security_group sg st) as [e | [g0 st0]] eqn:Hget; [discriminate |].
  apply get_security_group_inr in Hget as [-> Hg0].
  destruct (existsb _ _).
  - intros [= <-] h g' Hg'. exists g'. split; [exact Hg' |]. intros r Hr. left. exact Hr.
  - unfold set_resource, get_node, get_nodes, get_declared, put_nodes,
      mbind, M_bind, mret, M_ret, raise.
    destruct (nodes st !! sg) as [n |] eqn:Hn; [| discriminate].
    intros [= <-] h g'. unfold security_groups in *. simpl.
    rewrite lookup_omap. destruct (decide (sg = h)) as [<- | Hne].
    + rewrite lookup_insert_eq. simpl. intros [= <-].
      exists g0. split; [exact Hg0 |]. simpl. intros r Hr.
      apply elem_of_app in Hr as [Hr | Hr]; [left; exact Hr |].
      apply list_elem_of_singleton in Hr as ->. right. auto.
    + rewrite lookup_insert_ne by exact Hne. intros Hg'.
      exists g'. rewrite lookup_omap. split; [exact Hg' |]. intros r Hr. left. exact Hr.
Qed.

Lemma get_load_balancer_inr alb st lb st' :
  get_load_balancer alb st = inr (lb, st') → st' = st.
Proof.
  unfold get_load_balancer, get_node, get_nodes, mbind, M_bind, mret, M_ret, raise.
  destruct (nodes st !! alb) as [n |]; [| discriminate].
  destruct (resource n); try discriminate. intros [= _ ->]. reflexivity.
Qed.

(** Declaring a construct that is not a security group leaves the security
    groups as they are. *)
Lemma declare_security_groups id r st h st' :
  declare id r st = inr (h, st') →
  as_security_group (mkNode r []) = None →
  security_groups st' = security_groups st.
Proof.
  unfold declare, get_nodes, get_declared, put_nodes, mbind, M_bind, mret, M_ret, raise.
  destruct (nodes st !! id) as [n |] eqn:Hfree; [discriminate |].
  intros [= _ <-] Hkind. unfold security_groups. simpl.
  rewrite omap_insert_None by exact Hkind.
  apply delete_id. rewrite lookup_omap, Hfree. reflexivity.
Qed.

(** After [alb.add_listener(id, port, open)], a rule found in any security
    group was there before, or is on the listener's port. *)
Lemma add_listener_rules alb id port open st l st' :
  add_listener alb id port open st = inr (l, st') →
  ∀ h g', security_groups st' !! h = Some g' →
    ∃ g, security_groups st !! h = Some g
         ∧ ∀ r, r ∈ ec2.ingress_rules g' →
             r ∈ ec2.ingress_rules g ∨ ec2.rule_port r = ec2.tcp port.
Proof.
  unfold add_listener. unfold mbind at 1. unfold M_bind at 1.
  destruct (get_load_balancer alb st) as [e | [lb st0]] eqn:Hlb; [discriminate |].
  apply get_load_balancer_inr in Hlb as ->.
  unfold mbind at 1. unfold M_bind at 1.
  destruct (declare _ _ st) as [e | [l0 st1]] eqn:Hdecl; [discriminate |].
  apply declare_security_groups in Hdecl as Hsame; [| reflexivity].
  unfold mbind at 1. unfold M_bind at 1.
  destruct open.
  - destruct (add_ingress_rule _ _ _ _ st1) as [e | [[] st2]] eqn:Hadd; [discriminate |].
    intros [= _ <-] h g' Hg'.
    destruct (add_ingress_rule_rules _ _ _ _ _ _ Hadd h g' Hg') as (g & Hg & Hrules).
    exists g. rewrite <- Hsame. split; [exact Hg |].
    intros r Hr. destruct (Hrules r Hr) as [Hold | (_ & _ & Hport)]; [left | right]; assumption.
  - intros [= _ <-] h g' Hg'. exists g'. rewrite <- Hsame. split; [exact Hg' |].
    intros r Hr. left. exact Hr.
Qed.

(** ** Properties of every constructed stack *)

Section ConstructedStack.

Context (scope : Construct) (id : string) (kwargs : StackProps) (s : Stack).
Hypothesis Hs : BackstageEcsStack scope id kwargs = inr s.

(** C1. The security group attached to the database cluster has exactly one
    ingress rule; its source is the security group of the service, on TCP
    port 5432; no ingress rule of that group has a public address range as
    its source. *)
Theorem database_ingress_only_from_service :
  rds.security_groups <$> database_clusters s
    = {[ "BackstageAuroraDB" := ["RdsSecurityGroup"] ]}
  ∧ ecs.security_groups <$> services s = {[ "BackstageService" := ["EcsSecurityGroup"] ]}
  ∧ ec2.ingress_rules <$> (security_groups s !! "RdsSecurityGroup")
    = Some [ec2.mkIngressRule (ec2.sg_peer "EcsSecurityGroup") (ec2.tcp 5432)
              "Allow ECS to connect to RDS"]
  ∧ (∀ g r, security_groups s !! "RdsSecurityGroup" = Some g →
            r ∈ ec2.ingress_rules g → ec2.is_public_range (ec2.rule_peer r) = false).
Proof.
  rewrite (BackstageEcsStack_inr _ _ _ _ Hs).
  split; [by_evaluation |]. split; [by_evaluation |]. split; [by_evaluation |].
  intros g r Hg Hr. vm_compute in Hg. injection Hg as <-.
  apply list_elem_of_singleton in Hr as ->. reflexivity.
Qed.

(** C2. The explicit dependencies of the service include the database
    cluster, which gives an edge from the service to the database; the
    database is declared before the service. *)
Theorem service_depends_on_database :
  dom (services s) = {[ "BackstageService" ]}
  ∧ dom (database_clusters s) = {[ "BackstageAuroraDB" ]}
  ∧ ∀ v d, v ∈ dom (services s) → d ∈ dom (database_clusters s) →
      d ∈ dependencies_of s v ∧ (v, d) ∈ reference_edges s ∧ declared_before s d v.
Proof.
  rewrite (BackstageEcsStack_inr _ _ _ _ Hs).
  assert (Hv : dom (services (mkStack (construct_path scope) id kwargs
                                (nodes built) (declared built)))
               = {[ "BackstageService" ]}) by by_evaluation.
  assert (Hd : dom (database_clusters (mkStack (construct_path scope) id kwargs
                                         (nodes built) (declared built)))
               = {[ "BackstageAuroraDB" ]}) by by_evaluation.
  split; [exact Hv |]. split; [exact Hd |].
  intros v d Hv' Hd'. rewrite Hv in Hv'. rewrite Hd in Hd'.
  apply elem_of_singleton in Hv' as ->. apply elem_of_singleton in Hd' as ->.
  split; [by_decision |]. split; [by_decision |].
  exists 8%nat, 12%nat. split; [by_evaluation |]. split; [by_evaluation | lia].
Qed.

(** C3. The security group attached to the load balancer has ingress rules,
    and every one of them after the whole construction, what the listener
    opens included, is on the listener's public port 80 and on no other
    port. *)
Theorem load_balancer_ingress_only_public_port :
  elbv2.security_group <$> load_balancers s = {[ "CustomALB" := "ALBSecurityGroup" ]}
  ∧ elbv2.port <$> listeners s = {[ "CustomALB/ALBListener" := 80 ]}
  ∧ (∃ g, security_groups s !! "ALBSecurityGroup" = Some g ∧ ec2.ingress_rules g ≠ [])
  ∧ (∀ g r, security_groups s !! "ALBSecurityGroup" = Some g →
            r ∈ ec2.ingress_rules g → ec2.rule_port r = ec2.tcp 80).
Proof.
  rewrite (BackstageEcsStack_inr _ _ _ _ Hs).
  split; [by_evaluation |]. split; [by_evaluation |]. split.
  - eexists. split; [by_evaluation | discriminate].
  - intros g r Hg Hr. vm_compute in Hg. injection Hg as <-.
    apply list_elem_of_singleton in Hr as ->. reflexivity.
Qed.

(** C4. The one container of the task definition, BackstageContainer,
    declares container port 7007; the listener registers the service running
    that task definition with that container on port 7007; the listener
    itself is on port 80. *)
Theorem listener_port_pairing :
  container_ports <$> task_definitions s
    = {[ "BackstageTaskDef" := [("BackstageContainer", [7007])] ]}
  ∧ ecs.task_definition <$> services s = {[ "BackstageService" := "BackstageTaskDef" ]}
  ∧ registered_targets <$> listeners s
    = {[ "CustomALB/ALBListener" :=
           [elbv2.mkLoadBalancerTarget "BackstageService" "BackstageContainer" 7007] ]}
  ∧ elbv2.port <$> listeners s = {[ "CustomALB/ALBListener" := 80 ]}.
Proof.
  rewrite (BackstageEcsStack_inr _ _ _ _ Hs).
  split; [by_evaluation |]. split; [by_evaluation |]. split; by_evaluation.
Qed.

(** C6. Every database cluster of the stack, and there is one, carries the
    removal policy DESTROY, not RETAIN and not SNAPSHOT. *)
Theorem database_is_destructible :
  rds.removal_policy <$> database_clusters s = {[ "BackstageAuroraDB" := DESTROY ]}
  ∧ ∀ h d, database_clusters s !! h = Some d →
      rds.removal_policy d = DESTROY
      ∧ rds.removal_policy d ≠ RETAIN ∧ rds.removal_policy d ≠ SNAPSHOT.
Proof.
  rewrite (BackstageEcsStack_inr _ _ _ _ Hs).
  assert (Hp : rds.removal_policy <$> database_clusters
                 (mkStack (construct_path scope) id kwargs (nodes built) (declared built))
               = {[ "BackstageAuroraDB" := DESTROY ]}) by by_evaluation.
  split; [exact Hp |].
  intros h d Hd.
  assert (Hl : (rds.removal_policy <$> database_clusters
                  (mkStack (construct_path scope) id kwargs (nodes built) (declared built)))
               !! h = Some (rds.removal_policy d)) by (rewrite lookup_fmap, Hd; reflexivity).
  rewrite Hp in Hl. apply lookup_singleton_Some in Hl as [_ <-].
  repeat split; discriminate.
Qed.

(** C7. The one container is given exactly five plain values and one secret:
    the database host and port (attributes of the database cluster), the
    database user, the bucket name (attribute of the bucket), the base URL
    (built from the load balancer's DNS name), and the password, which is the
    password field of the secret the database cluster generates. *)
Theorem container_injected_values :
  container_environments <$> task_definitions s
    = {[ "BackstageTaskDef" :=
           [ {[ "POSTGRES_HOST" := VAttr "BackstageAuroraDB" "cluster_endpoint.hostname";
                "POSTGRES_USER" := VStr "postgres";
                "POSTGRES_PORT" := VToStr (VAttr "BackstageAuroraDB" "cluster_endpoint.port");
                "AWS_S3_BUCKET" := VAttr "BackstageAssets" "bucket_name";
                "BASE_URL" := VFormat "http://" (VAttr "CustomALB" "load_balancer_dns_name") ]} ] ]}
  ∧ container_secrets <$> task_definitions s
    = {[ "BackstageTaskDef" :=
           [ {[ "POSTGRES_PASSWORD" :=
                  ecs.from_secrets_manager (ecs.cluster_secret "BackstageAuroraDB")
                    "password" ]} ] ]}
  ∧ rds.credentials <$> database_clusters s
    = {[ "BackstageAuroraDB" := rds.from_generated_secret "postgres" ]}
  ∧ dom (buckets s) = {[ "BackstageAssets" ]}
  ∧ dom (load_balancers s) = {[ "CustomALB" ]}.
Proof.
  rewrite (BackstageEcsStack_inr _ _ _ _ Hs).
  split; [by_evaluation |]. split; [by_evaluation |]. split; [by_evaluation |].
  split; by_evaluation.
Qed.

(** C8. The stack declares exactly one output, LoadBalancerDNS, and its value
    is the DNS name of the load balancer. *)
Theorem single_output_is_load_balancer_address :
  outputs s
    = {[ "LoadBalancerDNS" := {| value := VAttr "CustomALB" "load_balancer_dns_name" |} ]}
  ∧ size (outputs s) = 1%nat
  ∧ dom (load_balancers s) = {[ "CustomALB" ]}.
Proof.
  rewrite (BackstageEcsStack_inr _ _ _ _ Hs).
  split; [by_evaluation |]. split; by_evaluation.
Qed.

(** C9. The service asks for exactly one replica and is attached to exactly
    one security group, the ECS security group. *)
Theorem service_replicas_and_group :
  ecs.desired_count <$> services s = {[ "BackstageService" := 1 ]}
  ∧ ecs.security_groups <$> services s = {[ "BackstageService" := ["EcsSecurityGroup"] ]}
  ∧ "EcsSecurityGroup" ∈ dom (security_groups s).
Proof.
  rewrite (BackstageEcsStack_inr _ _ _ _ Hs).
  split; [by_evaluation |]. split; [by_evaluation | by_decision].
Qed.

(** C10. The database cluster's serverless capacity range is declared as
    minimum 1/2 and maximum 4, and for every database cluster of the stack
    the minimum is at most the maximum. *)
Theorem database_capacity_range :
  capacity_range <$> database_clusters s
    = {[ "BackstageAuroraDB" := ((1 # 2)%Q, (4 # 1)%Q) ]}
  ∧ ∀ h d, database_clusters s !! h = Some d →
      (rds.serverless_v2_min_capacity d <= rds.serverless_v2_max_capacity d)%Q.
Proof.
  rewrite (BackstageEcsStack_inr _ _ _ _ Hs).
  assert (Hc : capacity_range <$> database_clusters
                 (mkStack (construct_path scope) id kwargs (nodes built) (declared built))
               = {[ "BackstageAuroraDB" := ((1 # 2)%Q, (4 # 1)%Q) ]}) by by_evaluation.
  split; [exact Hc |].
  intros h d Hd.
  assert (Hl : (capacity_range <$> database_clusters
                  (mkStack (construct_path scope) id kwargs (nodes built) (declared built)))
               !! h = Some (capacity_range d)) by (rewrite lookup_fmap, Hd; reflexivity).
  rewrite Hc in Hl. apply lookup_singleton_Some in Hl as [_ Hr].
  injection Hr as <- <-. discriminate.
Qed.

End ConstructedStack.

(** ** Two runs *)

(** C5. Two runs of the constructor in deployment contexts that agree on
    scope, id, account and region (whatever else the keyword arguments say)
    end in graphs with the same logical names and the same edges, placed under
    the same scope, id, account and region. *)
Theorem construction_deterministic
    (scope1 scope2 : Construct) (id1 id2 : string) (kwargs1 kwargs2 : StackProps)
    (s1 s2 : Stack) :
  scope1 = scope2 →
  id1 = id2 →
  props_account kwargs1 = props_account kwargs2 →
  props_region kwargs1 = props_region kwargs2 →
  BackstageEcsStack scope1 id1 kwargs1 = inr s1 →
  BackstageEcsStack scope2 id2 kwargs2 = inr s2 →
  logical_names s1 = logical_names s2
  ∧ reference_edges s1 = reference_edges s2
  ∧ stack_scope s1 = stack_scope s2
  ∧ stack_id s1 = stack_id s2
  ∧ stack_account s1 = stack_account s2
  ∧ stack_region s1 = stack_region s2.
Proof.
  intros -> -> Hacc Hreg H1 H2.
  rewrite (BackstageEcsStack_inr _ _ _ _ H1), (BackstageEcsStack_inr _ _ _ _ H2).
  unfold logical_names, reference_edges, stack_account, stack_region. simpl.
  repeat split; assumption || reflexivity.
Qed.

(** ** The constructor at a concrete context *)

Lemma database_ingress_only_from_service_witness :
  BackstageEcsStack app "Backstage" prod_props = inr built
  ∧ ec2.ingress_rules <$> (security_groups built !! "RdsSecurityGroup")
    = Some [ec2.mkIngressRule (ec2.sg_peer "EcsSecurityGroup") (ec2.tcp 5432)
              "Allow ECS to connect to RDS"].
Proof.
  assert (H : BackstageEcsStack app "Backstage" prod_props = inr built)
    by (vm_compute; reflexivity).
  split; [exact H |].
  exact (proj1 (proj2 (proj2
    (database_ingress_only_from_service app "Backstage" prod_props built H)))).
Defined.

Lemma service_depends_on_database_witness :
  BackstageEcsStack app "Backstage" prod_props = inr built
  ∧ dom (database_clusters built) = {[ "BackstageAuroraDB" ]}.
Proof.
  assert (H : BackstageEcsStack app "Backstage" prod_props = inr built)
    by (vm_compute; reflexivity).
  split; [exact H |].
  exact (proj1 (proj2 (service_depends_on_database app "Backstage" prod_props built H))).
Defined.

Lemma load_balancer_ingress_only_public_port_witness :
  BackstageEcsStack app "Backstage" prod_props = inr built
  ∧ elbv2.port <$> listeners built = {[ "CustomALB/ALBListener" := 80 ]}.
Proof.
  assert (H : BackstageEcsStack app "Backstage" prod_props = inr built)
    by (vm_compute; reflexivity).
  split; [exact H |].
  exact (proj1 (proj2
    (load_balancer_ingress_only_public_port app "Backstage" prod_props built H))).
Defined.

Lemma listener_port_pairing_witness :
  BackstageEcsStack app "Backstage" prod_props = inr built
  ∧ container_ports <$> task_definitions built
    = {[ "BackstageTaskDef" := [("BackstageContainer", [7007])] ]}.
Proof.
  assert (H : BackstageEcsStack app "Backstage" prod_props = inr built)
    by (vm_compute; reflexivity).
  split; [exact H |].
  exact (proj1 (listener_port_pairing app "Backstage" prod_props built H)).
Defined.

Lemma construction_deterministic_witness :
  BackstageEcsStack app "Backstage" prod_props = inr built
  ∧ BackstageEcsStack app "Backstage" described_props
    = inr (mkStack [] "Backstage" described_props (nodes built) (declared built))
  ∧ reference_edges built
    = reference_edges (mkStack [] "Backstage" described_props (nodes built) (declared built)).
Proof.
  assert (H1 : BackstageEcsStack app "Backstage" prod_props = inr built)
    by (vm_compute; reflexivity).
  assert (H2 : BackstageEcsStack app "Backstage" described_props
               = inr (mkStack [] "Backstage" described_props (nodes built) (declared built)))
    by (vm_compute; reflexivity).
  split; [exact H1 |]. split; [exact H2 |].
  exact (proj1 (proj2
    (construction_deterministic app app "Backstage" "Backstage" prod_props described_props
       built _ eq_refl eq_refl eq_refl eq_refl H1 H2))).
Defined.

Lemma database_is_destructible_witness :
  BackstageEcsStack app "Backstage" prod_props = inr built
  ∧ rds.removal_policy <$> database_clusters built = {[ "BackstageAuroraDB" := DESTROY ]}.
Proof.
  assert (H : BackstageEcsStack app "Backstage" prod_props = inr built)
    by (vm_compute; reflexivity).
  split; [exact H |].
  exact (proj1 (database_is_destructible app "Backstage" prod_props built H)).
Defined.

Lemma container_injected_values_witness :
  BackstageEcsStack app "Backstage" prod_props = inr built
  ∧ container_secrets <$> task_definitions built
    = {[ "BackstageTaskDef" :=
           [ {[ "POSTGRES_PASSWORD" :=
                  ecs.from_secrets_manager (ecs.cluster_secret "BackstageAuroraDB")
                    "password" ]} ] ]}.
Proof.
  assert (H : BackstageEcsStack app "Backstage" prod_props = inr built)
    by (vm_compute; reflexivity).
  split; [exact H |].
  exact (proj1 (proj2 (container_injected_values app "Backstage" prod_props built H))).
Defined.

Lemma single_output_is_load_balancer_address_witness :
  BackstageEcsStack app "Backstage" prod_props = inr built
  ∧ size (outputs built) = 1%nat.
Proof.
  assert (H : BackstageEcsStack app "Backstage" prod_props = inr built)
    by (vm_compute; reflexivity).
  split; [exact H |].
  exact (proj1 (proj2
    (single_output_is_load_balancer_address app "Backstage" prod_props built H))).
Defined.

Lemma service_replicas_and_group_witness :
  BackstageEcsStack app "Backstage" prod_props = inr built
  ∧ ecs.desired_count <$> services built = {[ "BackstageService" := 1 ]}.
Proof.
  assert (H : BackstageEcsStack app "Backstage" prod_props = inr built)
    by (vm_compute; reflexivity).
  split; [exact H |].
  exact (proj1 (service_replicas_and_group app "Backstage" prod_props built H)).
Defined.

Lemma database_capacity_range_witness :
  BackstageEcsStack app "Backstage" prod_props = inr built
  ∧ capacity_range <$> database_clusters built
    = {[ "BackstageAuroraDB" := ((1 # 2)%Q, (4 # 1)%Q) ]}.
Proof.
  assert (H : BackstageEcsStack app "Backstage" prod_props = inr built)
    by (vm_compute; reflexivity).
  split; [exact H |].
  exact (proj1 (database_capacity_range app "Backstage" prod_props built H)).
Defined.

(** ** When the constructor raises *)



(** ** The shape of the graph *)



Section GraphShape.

Context (scope : Construct) (id : string) (kwargs : StackProps) (s : Stack).
Hypothesis Hs : BackstageEcsStack scope id kwargs = inr s.

(** X2. No reference dangles: both ends of every edge of the graph are
    logical names of the stack. *)
Theorem references_resolve :
  ∀ a b, (a, b) ∈ reference_edges s → a ∈ logical_names s ∧ b ∈ logical_names s.
Proof.
  rewrite (BackstageEcsStack_inr _ _ _ _ Hs). intros a b Hab.
  refine (bool_decide_unpack
    (set_Forall (fun e : handle * handle =>
       e.1 ∈ logical_names _ ∧ e.2 ∈ logical_names _) (reference_edges _)) _ (a, b) Hab).
  vm_compute. exact I.
Qed.



End GraphShape.

(** ** Network and access *)

Section Wiring.

Context (scope : Construct) (id : string) (kwargs : StackProps) (s : Stack).
Hypothesis Hs : BackstageEcsStack scope id kwargs = inr s.

(** X5. The stack has one VPC and every [vpc=...] argument names it; so the
    security group of the load balancer, the groups of the database cluster
    and the groups of the service each lie in the VPC of the construct they
    are attached to (for the service, the VPC of its cluster). *)
Theorem one_network :
  size (vpcs s) = 1%nat
  ∧ (∀ h n, nodes s !! h = Some n →
       Forall (fun v => v ∈ dom (vpcs s)) (vpc_refs (resource n)))
  ∧ (∀ h lb, load_balancers s !! h = Some lb →
       group_vpc s (elbv2.security_group lb) = Some (elbv2.alb_vpc lb))
  ∧ (∀ h d, database_clusters s !! h = Some d →
       Forall (fun sg => group_vpc s sg = Some (rds.instance_vpc (rds.instance_props d)))
         (rds.security_groups d))
  ∧ (∀ h v, services s !! h = Some v →
       is_Some (clusters s !! ecs.cluster v)
       ∧ Forall (fun sg => group_vpc s sg = ecs.cluster_vpc <$> (clusters s !! ecs.cluster v))
           (ecs.security_groups v)).
Proof.
  rewrite (BackstageEcsStack_inr _ _ _ _ Hs).
  set (g := mkStack (construct_path scope) id kwargs (nodes built) (declared built)).
  split; [by_evaluation |]. split.
  { apply (bool_decide_unpack (map_Forall (fun (h : string) n =>
      Forall (fun v => v ∈ dom (vpcs g)) (vpc_refs (resource n))) (nodes g))).
    vm_compute. exact I. }
  split.
  { apply (bool_decide_unpack (map_Forall (fun (h : string) lb =>
      group_vpc g (elbv2.security_group lb) = Some (elbv2.alb_vpc lb)) (load_balancers g))).
    vm_compute. exact I. }
  split.
  { apply (bool_decide_unpack (map_Forall (fun (h : string) d =>
      Forall (fun sg => group_vpc g sg = Some (rds.instance_vpc (rds.instance_props d)))
        (rds.security_groups d)) (database_clusters g))).
    vm_compute. exact I. }
  apply (bool_decide_unpack (map_Forall (fun (h : string) v =>
    is_Some (clusters g !! ecs.cluster v)
    ∧ Forall (fun sg => group_vpc g sg = ecs.cluster_vpc <$> (clusters g !! ecs.cluster v))
        (ecs.security_groups v)) (services g))).
  vm_compute. exact I.
Qed.

(** X6. Only the security group of the internet-facing load balancer takes
    traffic from a public address range: a rule with a public source sits in
    no other group, the groups of the service and of the database are not
    among the internet-facing ones, and the bucket has public read access
    off. *)
Theorem only_load_balancer_is_public :
  (∀ h g, security_groups s !! h = Some g →
     Forall (fun r => ec2.is_public_range (ec2.rule_peer r) = true →
                      h ∈ internet_facing_groups s) (ec2.ingress_rules g))
  ∧ (∀ h v, services s !! h = Some v →
       Forall (fun sg => sg ∉ internet_facing_groups s) (ecs.security_groups v))
  ∧ (∀ h d, database_clusters s !! h = Some d →
       Forall (fun sg => sg ∉ internet_facing_groups s) (rds.security_groups d))
  ∧ (∀ h b, buckets s !! h = Some b → s3.public_read_access b = false).
Proof.
  rewrite (BackstageEcsStack_inr _ _ _ _ Hs).
  set (g0 := mkStack (construct_path scope) id kwargs (nodes built) (declared built)).
  split.
  { apply (bool_decide_unpack (map_Forall (fun (h : string) g =>
      Forall (fun r => ec2.is_public_range (ec2.rule_peer r) = true →
                       h ∈ internet_facing_groups g0) (ec2.ingress_rules g))
      (security_groups g0))).
    vm_compute. exact I. }
  split.
  { apply (bool_decide_unpack (map_Forall (fun (h : string) v =>
      Forall (fun sg => sg ∉ internet_facing_groups g0) (ecs.security_groups v))
      (services g0))).
    vm_compute. exact I. }
  split.
  { apply (bool_decide_unpack (map_Forall (fun (h : string) d =>
      Forall (fun sg => sg ∉ internet_facing_groups g0) (rds.security_groups d))
      (database_clusters g0))).
    vm_compute. exact I. }
  apply (bool_decide_unpack (map_Forall (fun (h : string) b =>
    s3.public_read_access b = false) (buckets g0))).
  vm_compute. exact I.
Qed.

(** X7. What reaches the service: each security group of the service has
    ingress rules, and every one of them comes from a load balancer's
    security group on a port that a container of the service's task
    definition maps. *)
Theorem service_ingress_from_load_balancer :
  ∀ h v, services s !! h = Some v →
    Forall (fun sg =>
      group_rules s sg ≠ []
      ∧ Forall (fun r =>
          ec2.rule_peer r ∈ (ec2.sg_peer <$> load_balancer_groups s)
          ∧ ec2.rule_port r ∈ (ec2.tcp <$> service_container_ports s v))
          (group_rules s sg))
      (ecs.security_groups v).
Proof.
  rewrite (BackstageEcsStack_inr _ _ _ _ Hs).
  set (g := mkStack (construct_path scope) id kwargs (nodes built) (declared built)).
  apply (bool_decide_unpack (map_Forall (fun (h : string) v =>
    Forall (fun sg =>
      group_rules g sg ≠ []
      ∧ Forall (fun r =>
          ec2.rule_peer r ∈ (ec2.sg_peer <$> load_balancer_groups g)
          ∧ ec2.rule_port r ∈ (ec2.tcp <$> service_container_ports g v))
          (group_rules g sg))
      (ecs.security_groups v)) (services g))).
  vm_compute. exact I.
Qed.


(** X9. Every target registration of every listener has a health check whose
    timeout is positive and shorter than its interval, with positive
    thresholds; and the listener has a registration. *)
Theorem health_check_timeout_within_interval :
  ∀ h l, listeners s !! h = Some l →
    elbv2.registrations l ≠ []
    ∧ Forall (fun reg =>
        0 < elbv2.timeout_seconds (elbv2.health_check reg)
        ∧ elbv2.timeout_seconds (elbv2.health_check reg)
          < elbv2.interval_seconds (elbv2.health_check reg)
        ∧ 0 < elbv2.healthy_threshold_count (elbv2.health_check reg)
        ∧ 0 < elbv2.unhealthy_threshold_count (elbv2.health_check reg))
        (elbv2.registrations l).
Proof.
  rewrite (BackstageEcsStack_inr _ _ _ _ Hs).
  set (g := mkStack (construct_path scope) id kwargs (nodes built) (declared built)).
  apply (bool_decide_unpack (map_Forall (fun (h : string) l =>
    elbv2.registrations l ≠ []
    ∧ Forall (fun reg =>
        0 < elbv2.timeout_seconds (elbv2.health_check reg)
        ∧ elbv2.timeout_seconds (elbv2.health_check reg)
          < elbv2.interval_seconds (elbv2.health_check reg)
        ∧ 0 < elbv2.healthy_threshold_count (elbv2.health_check reg)
        ∧ 0 < elbv2.unhealthy_threshold_count (elbv2.health_check reg))
        (elbv2.registrations l)) (listeners g))).
  vm_compute. exact I.
Qed.



End Wiring.

(** ** The same graph in every context *)


(** ** The further properties at a concrete context *)

Lemma references_resolve_witness :
  BackstageEcsStack app "Backstage" prod_props = inr built
  ∧ "BackstageService" ∈ logical_names built ∧ "BackstageAuroraDB" ∈ logical_names built.
Proof.
  assert (H : BackstageEcsStack app "Backstage" prod_props = inr built)
    by (vm_compute; reflexivity).
  split; [exact H |].
  apply (references_resolve app "Backstage" prod_props built H).
  apply (bool_decide_unpack _). vm_compute. exact I.
Defined.



Lemma one_network_witness :
  BackstageEcsStack app "Backstage" prod_props = inr built
  ∧ size (vpcs built) = 1%nat.
Proof.
  assert (H : BackstageEcsStack app "Backstage" prod_props = inr built)
    by (vm_compute; reflexivity).
  split; [exact H |].
  exact (proj1 (one_network app "Backstage" prod_props built H)).
Defined.

Lemma only_load_balancer_is_public_witness :
  BackstageEcsStack app "Backstage" prod_props = inr built
  ∧ ∃ b, buckets built !! "BackstageAssets" = Some b ∧ s3.public_read_access b = false.
Proof.
  assert (H : BackstageEcsStack app "Backstage" prod_props = inr built)
    by (vm_compute; reflexivity).
  split; [exact H |].
  destruct (buckets built !! "BackstageAssets") as [b |] eqn:Hb;
    [| vm_compute in Hb; discriminate Hb].
  exists b. split; [reflexivity |].
  exact (proj2 (proj2 (proj2
    (only_load_balancer_is_public app "Backstage" prod_props built H))) _ _ Hb).
Defined.

Lemma service_ingress_from_load_balancer_witness :
  BackstageEcsStack app "Backstage" prod_props = inr built
  ∧ group_rules built "EcsSecurityGroup" ≠ [].
Proof.
  assert (H : BackstageEcsStack app "Backstage" prod_props = inr built)
    by (vm_compute; reflexivity).
  split; [exact H |].
  assert (Hv : services built !! "BackstageService"
               = Some (ecs.mkFargateService "BackstageCluster" "BackstageTaskDef"
                         ["EcsSecurityGroup"] 1 ecs.ECS))
    by (vm_compute; reflexivity).
  exact (proj1 (Forall_inv
    (service_ingress_from_load_balancer app "Backstage" prod_props built H _ _ Hv))).
Defined.


Lemma health_check_timeout_within_interval_witness :
  BackstageEcsStack app "Backstage" prod_props = inr built
  ∧ ∃ l, listeners built !! "CustomALB/ALBListener" = Some l ∧ elbv2.registrations l ≠ [].
Proof.
  assert (H : BackstageEcsStack app "Backstage" prod_props = inr built)
    by (vm_compute; reflexivity).
  split; [exact H |].
  destruct (listeners built !! "CustomALB/ALBListener") as [l |] eqn:Hl;
    [| vm_compute in Hl; discriminate Hl].
  exists l. split; [reflexivity |].
  exact (proj1 (health_check_timeout_within_interval app "Backstage" prod_props built H
                  _ _ Hl)).
Defined.



